(** * The Buchsbaum (ion-ion hybrid) frequency of [hack/Buchsbaum_frequency.py]

    The Python function [buchsbaum_frequency] calls the two formulary
    functions [gyrofrequency] and [plasma_frequency] (imported from
    [plasmapy.formulary.frequencies], not part of the source file) and
    combines their four results with one numpy expression.

    The embedding follows that shape:
    - a Python call either returns a value or raises: [outcome];
    - the arithmetic of the numeric library is an interface, [NumLib], with
      two instances: [xreal], exact real arithmetic extended with the
      exceptional values [inf], [-inf] and [nan] that numpy returns instead
      of raising, and [float], IEEE binary64 as numpy computes it;
    - the two formulary functions are parameters of [buchsbaum_frequency].

    Physical units and array broadcasting are not modelled: a quantity is a
    scalar, its magnitude in SI units.  The annotations of the signature are
    not read by the body and are left out.

    The running code computes in binary64: what is stated on [float], or on
    every [NumLib], is about the code as it runs.  [xreal] is the formula
    before rounding: what is stated on [xreal] says what the expression
    means in exact arithmetic and is marked so; binary64 follows it up to
    rounding, overflow and underflow only, and the last part of the file
    shows inputs where the two differ. *)

From Stdlib Require Import Floats.
From Stdlib Require Import Bool ZArith String Reals Lra Psatz.

(** ** Outcome of a Python call *)

Inductive outcome (E A : Type) : Type :=
| Returns (a : A)
| Raises (e : E).

Arguments Returns {E A} a.
Arguments Raises {E A} e.

Definition bind {E A B : Type} (c : outcome E A) (k : A -> outcome E B) : outcome E B :=
  match c with
  | Returns a => k a
  | Raises e => Raises e
  end.

Notation "x <- c ;; k" := (bind c (fun x => k))
  (at level 61, c at next level, right associativity).

(** ** The arithmetic of the numeric library *)

Class NumLib (V : Type) : Type := {
  np_add : V -> V -> V;
  np_mul : V -> V -> V;
  np_div : V -> V -> V;
  np_sqrt : V -> V;
  np_abs : V -> V;
  np_neg : V -> V
}.

(** [x ** 2]: numpy squares by one multiplication. *)
Definition np_sq {V : Type} `{NumLib V} (x : V) : V := np_mul x x.

Declare Scope np_scope.
Delimit Scope np_scope with np.
Notation "x + y" := (np_add x y) : np_scope.
Notation "x * y" := (np_mul x y) : np_scope.
Notation "x / y" := (np_div x y) : np_scope.
Notation "x '**2'" := (np_sq x) (at level 1, format "x '**2'") : np_scope.

(** ** The function of the source file *)

Section Buchsbaum.

Context {V : Type} `{NumLib V}.
Context {Particle Exn : Type}.

(** [gyrofrequency(B, particle, signed, Z)] and
    [plasma_frequency(n, particle, z_mean)] of the formulary. *)
Variable gyrofrequency : V -> Particle -> bool -> option V -> outcome Exn V.
Variable plasma_frequency : V -> Particle -> option V -> outcome Exn V.

Definition buchsbaum_frequency (B n1 n2 : V) (particle1 particle2 : Particle)
    (Z1 Z2 : option V) (to_hz : bool) : outcome Exn V :=
  omega_c1 <- gyrofrequency B particle1 false Z1 ;;
  omega_c2 <- gyrofrequency B particle2 false Z2 ;;
  omega_p1 <- plasma_frequency n1 particle1 None ;;
  omega_p2 <- plasma_frequency n2 particle2 None ;;
  Returns (np_sqrt ((omega_p1**2 * omega_c2**2 + omega_p2**2 * omega_c1**2)
                    / (omega_p1**2 + omega_p2**2)))%np.

(** The three aliases bound after the definition. *)
Definition omega_bb_ := buchsbaum_frequency.
Definition omega_ii_ := buchsbaum_frequency.
Definition omega_bi_ := buchsbaum_frequency.

End Buchsbaum.

(** ** Exact arithmetic with numpy's exceptional values *)

Inductive xreal : Type :=
| Fin (r : R)
| PInf
| NInf
| NaN.

Definition is_neg (r : R) : bool := if Rlt_dec r 0 then true else false.
Definition is_zero (r : R) : bool := if Req_dec_T r 0 then true else false.
Definition xinf (negative : bool) : xreal := if negative then NInf else PInf.

Definition xadd (a b : xreal) : xreal :=
  match a, b with
  | NaN, _ | _, NaN => NaN
  | Fin x, Fin y => Fin (x + y)
  | PInf, NInf | NInf, PInf => NaN
  | PInf, _ | _, PInf => PInf
  | NInf, _ | _, NInf => NInf
  end.

(** An infinity of the given sign times [b]; [inf * 0] is [nan]. *)
Definition xmul_inf (negative : bool) (b : xreal) : xreal :=
  match b with
  | NaN => NaN
  | Fin y => if is_zero y then NaN else xinf (xorb negative (is_neg y))
  | PInf => xinf negative
  | NInf => xinf (negb negative)
  end.

Definition xmul (a b : xreal) : xreal :=
  match a, b with
  | NaN, _ | _, NaN => NaN
  | Fin x, Fin y => Fin (x * y)
  | PInf, _ => xmul_inf false b
  | NInf, _ => xmul_inf true b
  | _, PInf => xmul_inf false a
  | _, NInf => xmul_inf true a
  end.

(** Division does not raise: [0 / 0] is [nan], [x / 0] an infinity. *)
Definition xdiv (a b : xreal) : xreal :=
  match a, b with
  | NaN, _ | _, NaN => NaN
  | Fin x, Fin y =>
      if is_zero y then (if is_zero x then NaN else xinf (is_neg x))
      else Fin (x / y)
  | Fin _, _ => Fin 0
  | PInf, Fin y => xinf (is_neg y)
  | NInf, Fin y => xinf (negb (is_neg y))
  | _, _ => NaN
  end.

Definition xsqrt (a : xreal) : xreal :=
  match a with
  | Fin x => if is_neg x then NaN else Fin (sqrt x)
  | PInf => PInf
  | NInf | NaN => NaN
  end.

Definition xabs (a : xreal) : xreal :=
  match a with
  | Fin x => Fin (Rabs x)
  | PInf | NInf => PInf
  | NaN => NaN
  end.

Definition xneg (a : xreal) : xreal :=
  match a with
  | Fin x => Fin (- x)
  | PInf => NInf
  | NInf => PInf
  | NaN => NaN
  end.

#[export] Instance xreal_NumLib : NumLib xreal := {
  np_add := xadd;
  np_mul := xmul;
  np_div := xdiv;
  np_sqrt := xsqrt;
  np_abs := xabs;
  np_neg := xneg
}.

(** ** IEEE binary64 *)

#[export] Instance float_NumLib : NumLib float := {
  np_add := PrimFloat.add;
  np_mul := PrimFloat.mul;
  np_div := PrimFloat.div;
  np_sqrt := PrimFloat.sqrt;
  np_abs := PrimFloat.abs;
  np_neg := PrimFloat.opp
}.

(** ** A reference formulary

    The two formulary functions are outside the source file.  The
    definitions below give them the textbook form, for use as concrete
    instances of the parameters of [buchsbaum_frequency]. *)

Record species (V : Type) : Type := {
  mass : V;
  charge_number : V
}.

Arguments mass {V} s.
Arguments charge_number {V} s.

Record constants (V : Type) : Type := {
  e_charge : V;
  eps0 : V
}.

Arguments e_charge {V} c.
Arguments eps0 {V} c.

Inductive formulary_error : Type :=
| InvalidParticleError (name : string).

Section Formulary.

Context {V : Type} `{NumLib V}.
Variable si : constants V.
Variable particle_table : string -> option (species V).

(** Modelled from the spec: [gyrofrequency] is imported from the external
    formulary; the unsigned gyrofrequency is the magnitude |Z e B| / m, the
    charge number being the override [Z] when given and the species' own
    otherwise, and an unknown species raises. *)
Definition gyrofrequency_ref (B : V) (particle : string) (signed : bool)
    (Z : option V) : outcome formulary_error V :=
  match particle_table particle with
  | None => Raises (InvalidParticleError particle)
  | Some s =>
      let z := match Z with Some z => z | None => charge_number s end in
      if signed then Returns (z * e_charge si * np_abs B / mass s)%np
      else Returns (np_abs (z * e_charge si * B) / mass s)%np
  end.

(** Modelled from the spec: [plasma_frequency] is imported from the external
    formulary; the plasma frequency is |Z| e sqrt(n / (eps0 m)), so that its
    square is proportional to the density, with the mean charge [z_mean]
    when given and the species' own charge number otherwise. *)
Definition plasma_frequency_ref (n : V) (particle : string)
    (z_mean : option V) : outcome formulary_error V :=
  match particle_table particle with
  | None => Raises (InvalidParticleError particle)
  | Some s =>
      let z := match z_mean with Some z => z | None => charge_number s end in
      Returns (np_abs z * e_charge si * np_sqrt (n / (eps0 si * mass s)))%np
  end.

End Formulary.

(** Protons and deuterons in SI units, as the binary64 values nearest to
    e = 1.602176634e-19 C, eps0 = 8.8541878128e-12 F/m,
    m_p = 1.67262192369e-27 kg and m_D = 3.3435837724e-27 kg. *)
Definition si_f64 : constants float :=
  {| e_charge := 0x1.7a4da290c1653p-63%float; eps0 := 0x1.37876f1206634p-37%float |}.

Definition table_f64 (name : string) : option (species float) :=
  if String.eqb name "p" then
    Some {| mass := 0x1.09099b1eaa2c5p-89%float; charge_number := 1%float |}
  else if String.eqb name "D+" then
    Some {| mass := 0x1.08e7ef8486b66p-88%float; charge_number := 1%float |}
  else None.

(** The same two species in units where e = eps0 = m_p = 1. *)
Definition unit_consts : constants xreal :=
  {| e_charge := Fin 1; eps0 := Fin 1 |}.

Definition table_exact (name : string) : option (species xreal) :=
  if String.eqb name "p" then
    Some {| mass := Fin 1; charge_number := Fin 1 |}
  else if String.eqb name "D+" then
    Some {| mass := Fin 2; charge_number := Fin 1 |}
  else None.

(** The reference formulary at the two tables. *)
Definition gyrofrequency_f64 := gyrofrequency_ref si_f64 table_f64.
Definition plasma_frequency_f64 := plasma_frequency_ref si_f64 table_f64.
Definition gyrofrequency_exact := gyrofrequency_ref unit_consts table_exact.
Definition plasma_frequency_exact := plasma_frequency_ref unit_consts table_exact.

(** ** The closed form of the spec, on real numbers *)

Definition omega_BB (omega_p1 omega_p2 omega_c1 omega_c2 : R) : R :=
  sqrt ((omega_p1 ^ 2 * omega_c2 ^ 2 + omega_p2 ^ 2 * omega_c1 ^ 2)
        / (omega_p1 ^ 2 + omega_p2 ^ 2)).

(** ** Signs of values *)

(** A binary64 value that is nan or has its sign bit clear: neither a
    negative number nor the negative zero. *)
Definition sign_clear (x : spec_float) : bool :=
  match x with
  | S754_nan => true
  | S754_zero s | S754_infinity s | S754_finite s _ _ => negb s
  end.

Definition not_negative (x : float) : bool := sign_clear (Prim2SF x).

(** The same for exact values. *)
Definition xnot_negative (x : xreal) : bool :=
  match x with
  | Fin r => negb (is_neg r)
  | PInf | NaN => true
  | NInf => false
  end.

(** Two outcomes that agree up to the sign of the returned value. *)
Definition up_to_sign {V : Type} `{NumLib V} {E : Type} (a b : outcome E V) : Prop :=
  match a, b with
  | Returns x, Returns y => x = y \/ x = np_neg y
  | Raises e, Raises e' => e = e'
  | _, _ => False
  end.

(** ** Classes of binary64 values *)

Definition sf_nan (x : spec_float) : bool :=
  match x with S754_nan => true | _ => false end.

Definition sf_inf (x : spec_float) : bool :=
  match x with S754_infinity _ => true | _ => false end.

Definition sf_zero (x : spec_float) : bool :=
  match x with S754_zero _ => true | _ => false end.

Definition float_nan (x : float) : bool := sf_nan (Prim2SF x).
Definition float_inf (x : float) : bool := sf_inf (Prim2SF x).
Definition float_zero (x : float) : bool := sf_zero (Prim2SF x).

(** The table of [table_f64] with one neutral species more: helium-4 with
    charge number zero (m = 6.6464764e-27 kg). *)
Definition table_neutral_f64 (name : string) : option (species float) :=
  if String.eqb name "He-4 0+" then
    Some {| mass := 0x1.074b47441a144p-87%float; charge_number := 0%float |}
  else table_f64 name.

(** * Properties *)

(** ** The shape of a call *)

Section Shape.

Context {V : Type} `{NumLib V}.
Context {Particle Exn : Type}.
Variable gyrofrequency : V -> Particle -> bool -> option V -> outcome Exn V.
Variable plasma_frequency : V -> Particle -> option V -> outcome Exn V.

(** When the four formulary calls return, so does the function, with the
    numpy expression of the last line. *)
Lemma buchsbaum_frequency_returns B n1 n2 particle1 particle2 Z1 Z2 to_hz
    omega_c1 omega_c2 omega_p1 omega_p2 :
  gyrofrequency B particle1 false Z1 = Returns omega_c1 ->
  gyrofrequency B particle2 false Z2 = Returns omega_c2 ->
  plasma_frequency n1 particle1 None = Returns omega_p1 ->
  plasma_frequency n2 particle2 None = Returns omega_p2 ->
  buchsbaum_frequency gyrofrequency plasma_frequency
    B n1 n2 particle1 particle2 Z1 Z2 to_hz
  = Returns (np_sqrt ((omega_p1**2 * omega_c2**2 + omega_p2**2 * omega_c1**2)
                      / (omega_p1**2 + omega_p2**2)))%np.
Proof.
  intros Hc1 Hc2 Hp1 Hp2. unfold buchsbaum_frequency.
  rewrite Hc1, Hc2, Hp1, Hp2. reflexivity.
Qed.

(** Conversely a returned value comes from four returned sub-results. *)
Lemma buchsbaum_frequency_inv B n1 n2 particle1 particle2 Z1 Z2 to_hz v :
  buchsbaum_frequency gyrofrequency plasma_frequency
    B n1 n2 particle1 particle2 Z1 Z2 to_hz = Returns v ->
  exists omega_c1 omega_c2 omega_p1 omega_p2,
    gyrofrequency B particle1 false Z1 = Returns omega_c1 /\
    gyrofrequency B particle2 false Z2 = Returns omega_c2 /\
    plasma_frequency n1 particle1 None = Returns omega_p1 /\
    plasma_frequency n2 particle2 None = Returns omega_p2 /\
    v = (np_sqrt ((omega_p1**2 * omega_c2**2 + omega_p2**2 * omega_c1**2)
                  / (omega_p1**2 + omega_p2**2)))%np.
Proof.
  unfold buchsbaum_frequency.
  destruct (gyrofrequency B particle1 false Z1) as [c1|]; simpl; [|discriminate].
  destruct (gyrofrequency B particle2 false Z2) as [c2|]; simpl; [|discriminate].
  destruct (plasma_frequency n1 particle1 None) as [w1|]; simpl; [|discriminate].
  destruct (plasma_frequency n2 particle2 None) as [w2|]; simpl; [|discriminate].
  intros Hv. injection Hv as <-. now exists c1, c2, w1, w2.
Qed.

(** A call raises exactly when one of the four formulary calls does. *)
Lemma buchsbaum_frequency_raises B n1 n2 particle1 particle2 Z1 Z2 to_hz :
  (exists e, buchsbaum_frequency gyrofrequency plasma_frequency
               B n1 n2 particle1 particle2 Z1 Z2 to_hz = Raises e) <->
  ((exists e, gyrofrequency B particle1 false Z1 = Raises e) \/
   (exists e, gyrofrequency B particle2 false Z2 = Raises e) \/
   (exists e, plasma_frequency n1 particle1 None = Raises e) \/
   (exists e, plasma_frequency n2 particle2 None = Raises e)).
Proof.
  unfold buchsbaum_frequency.
  destruct (gyrofrequency B particle1 false Z1) as [c1|e1]; simpl;
    [|split; [intros _; left; now exists e1 | intros _; now exists e1]].
  destruct (gyrofrequency B particle2 false Z2) as [c2|e2]; simpl;
    [|split; [intros _; right; left; now exists e2 | intros _; now exists e2]].
  destruct (plasma_frequency n1 particle1 None) as [w1|e3]; simpl;
    [|split; [intros _; right; right; left; now exists e3 | intros _; now exists e3]].
  destruct (plasma_frequency n2 particle2 None) as [w2|e4]; simpl;
    [|split; [intros _; do 3 right; now exists e4 | intros _; now exists e4]].
  split.
  - intros [e He]. discriminate.
  - intros [[e He]|[[e He]|[[e He]|[e He]]]]; discriminate.
Qed.

End Shape.

(** ** Three calls in binary64 *)

(** Protons and deuterons at B = 1 T and n1 = n2 = 1e18 m^-3: the geometric
    mean of the two gyrofrequencies, about 6.77e7 rad/s. *)
Example buchsbaum_frequency_p_D :
  match buchsbaum_frequency gyrofrequency_f64 plasma_frequency_f64
          1%float 1e18%float 1e18%float "p"%string "D+"%string None None false with
  | Returns w => ((67749391 <? w) && (w <? 67749392))%float
  | Raises _ => false
  end = true.
Proof. vm_compute. reflexivity. Qed.

(** No deuterons: the gyrofrequency of the deuteron. *)
Example buchsbaum_frequency_no_D :
  buchsbaum_frequency gyrofrequency_f64 plasma_frequency_f64
    1%float 1e18%float 0%float "p"%string "D+"%string None None false
  = gyrofrequency_f64 1%float "D+"%string false None.
Proof. vm_compute. reflexivity. Qed.

(** A species the table does not know: the first gyrofrequency call raises. *)
Example buchsbaum_frequency_unknown :
  buchsbaum_frequency gyrofrequency_f64 plasma_frequency_f64
    1%float 1e18%float 1e18%float "not-a-particle"%string "D+"%string None None false
  = Raises (InvalidParticleError "not-a-particle").
Proof. vm_compute. reflexivity. Qed.

(** ** Real-number facts about the closed form *)

Section ClosedForm.

Local Open Scope R_scope.


Lemma sum_sq_pos (a b : R) : a ^ 2 + b ^ 2 <> 0 -> 0 < a ^ 2 + b ^ 2.
Proof. intros Hd. assert (0 <= a ^ 2 + b ^ 2) by nra. lra. Qed.

Lemma sum_sq_zero (a b : R) : a ^ 2 + b ^ 2 = 0 -> a = 0 /\ b = 0.
Proof. intros Hd. split; nra. Qed.

Lemma radicand_nonneg (wp1 wp2 wc1 wc2 : R) :
  wp1 ^ 2 + wp2 ^ 2 <> 0 ->
  0 <= (wp1 ^ 2 * wc2 ^ 2 + wp2 ^ 2 * wc1 ^ 2) / (wp1 ^ 2 + wp2 ^ 2).
Proof.
  intros Hd. apply sum_sq_pos in Hd.
  apply Rmult_le_pos; [nra | left; now apply Rinv_0_lt_compat].
Qed.

Lemma omega_BB_nonneg (wp1 wp2 wc1 wc2 : R) : 0 <= omega_BB wp1 wp2 wc1 wc2.
Proof. apply sqrt_pos. Qed.









End ClosedForm.

Section ClosedFormLimit.

Local Open Scope R_scope.



End ClosedFormLimit.

(** ** Evaluation of the numpy expression in exact arithmetic *)

Section Exact.

Local Open Scope R_scope.

Lemma is_zero_true : is_zero 0 = true.
Proof. unfold is_zero. destruct (Req_dec_T 0 0); [reflexivity | contradiction]. Qed.

Lemma is_zero_false (r : R) : r <> 0 -> is_zero r = false.
Proof. intros Hr. unfold is_zero. destruct (Req_dec_T r 0); [contradiction | reflexivity]. Qed.

Lemma is_neg_false (r : R) : 0 <= r -> is_neg r = false.
Proof. intros Hr. unfold is_neg. destruct (Rlt_dec r 0); [lra | reflexivity]. Qed.

(** On finite sub-results with a nonzero denominator the numpy expression
    is the closed form. *)
Lemma xreal_closed_form (wp1 wp2 wc1 wc2 : R) :
  wp1 ^ 2 + wp2 ^ 2 <> 0 ->
  (np_sqrt (((Fin wp1)**2 * (Fin wc2)**2 + (Fin wp2)**2 * (Fin wc1)**2)
            / ((Fin wp1)**2 + (Fin wp2)**2)))%np
  = Fin (omega_BB wp1 wp2 wc1 wc2).
Proof.
  intros Hd. unfold np_sq. cbn.
  assert (Hd' : wp1 * wp1 + wp2 * wp2 <> 0)
    by (intros Heq; apply Hd; rewrite <- Heq; ring).
  rewrite (is_zero_false _ Hd').
  replace ((wp1 * wp1 * (wc2 * wc2) + wp2 * wp2 * (wc1 * wc1)) / (wp1 * wp1 + wp2 * wp2))
    with ((wp1 ^ 2 * wc2 ^ 2 + wp2 ^ 2 * wc1 ^ 2) / (wp1 ^ 2 + wp2 ^ 2))
    by (now field).
  cbn. rewrite is_neg_false by now apply radicand_nonneg. reflexivity.
Qed.

(** With both plasma frequencies zero the expression is 0 / 0 (or nan / 0),
    whatever the gyrofrequencies. *)
Lemma xreal_indeterminate (omega_c1 omega_c2 : xreal) :
  (np_sqrt (((Fin 0)**2 * omega_c2**2 + (Fin 0)**2 * omega_c1**2)
            / ((Fin 0)**2 + (Fin 0)**2)))%np
  = NaN.
Proof.
  unfold np_sq. cbn.
  replace (0 * 0) with 0 by ring. replace (0 + 0) with 0 by ring.
  destruct omega_c1 as [c1| | |], omega_c2 as [c2| | |]; cbn;
    repeat match goal with
    | |- context [is_zero ?r] =>
        first [ replace r with 0 by ring; rewrite is_zero_true
              | destruct (is_zero r) eqn:? ]; cbn
    end; try reflexivity.
Qed.

(** On finite sub-results, nan comes from the zero denominator only. *)
Lemma xreal_nan_inv (wp1 wp2 wc1 wc2 : R) :
  (np_sqrt (((Fin wp1)**2 * (Fin wc2)**2 + (Fin wp2)**2 * (Fin wc1)**2)
            / ((Fin wp1)**2 + (Fin wp2)**2)))%np = NaN ->
  wp1 = 0 /\ wp2 = 0.
Proof.
  intros Hnan. destruct (Req_dec_T (wp1 ^ 2 + wp2 ^ 2) 0) as [Hz|Hnz].
  - now apply sum_sq_zero.
  - rewrite (xreal_closed_form _ _ _ _ Hnz) in Hnan. discriminate.
Qed.

End Exact.

(** ** Facts about binary64 arithmetic *)

Section Binary64.

Lemma SFadd_comm (prec emax : Z) (x y : spec_float) :
  SFadd prec emax x y = SFadd prec emax y x.
Proof.
  destruct x as [sx|sx| |sx mx ex], y as [sy|sy| |sy my ey]; try reflexivity.
  - destruct sx, sy; reflexivity.
  - destruct sx, sy; reflexivity.
  - cbn. rewrite (Z.min_comm ey ex), Z.add_comm. reflexivity.
Qed.

Lemma float_add_comm (x y : float) : np_add x y = np_add y x.
Proof.
  cbn. apply Prim2SF_inj. rewrite !add_spec. apply SFadd_comm.
Qed.

(** Zero times anything is a zero or nan. *)
Lemma float_zero_mul (y : float) :
  (0 * y = 0 \/ 0 * y = -0 \/ 0 * y = nan)%float.
Proof.
  rewrite <- (SF2Prim_Prim2SF (0 * y)%float), mul_spec.
  change (Prim2SF 0) with (S754_zero false).
  destruct (Prim2SF y) as [s|s| |s m e]; cbn.
  - destruct s; auto.
  - auto.
  - auto.
  - destruct s; auto.
Qed.

Lemma float_indeterminate (omega_c1 omega_c2 : float) :
  (np_sqrt ((0%float**2 * omega_c2**2 + 0%float**2 * omega_c1**2)
            / (0%float**2 + 0%float**2)))%np
  = nan.
Proof.
  unfold np_sq. cbn.
  change (0 * 0)%float with 0%float. change (0 + 0)%float with 0%float.
  destruct (float_zero_mul (omega_c2 * omega_c2)) as [-> | [-> | ->]],
           (float_zero_mul (omega_c1 * omega_c1)) as [-> | [-> | ->]]; reflexivity.
Qed.

End Binary64.

Lemma xadd_comm (x y : xreal) : np_add x y = np_add y x.
Proof.
  destruct x, y; cbn; try reflexivity. now rewrite Rplus_comm.
Qed.

(** ** The reference formulary in exact arithmetic *)

Section ReferenceExact.

Local Open Scope R_scope.

Lemma gyrofrequency_exact_p (B : R) (signed : bool) :
  gyrofrequency_exact (Fin B) "p" signed None = Returns (Fin (Rabs B)).
Proof.
  unfold gyrofrequency_exact, gyrofrequency_ref. cbn.
  rewrite is_zero_false by lra.
  destruct signed; do 2 f_equal.
  - field.
  - replace (1 * 1 * B) with B by ring. field.
Qed.

Lemma gyrofrequency_exact_D (B : R) (signed : bool) :
  gyrofrequency_exact (Fin B) "D+" signed None = Returns (Fin (Rabs B / 2)).
Proof.
  unfold gyrofrequency_exact, gyrofrequency_ref. cbn.
  rewrite is_zero_false by lra.
  destruct signed; do 2 f_equal.
  - field.
  - replace (1 * 1 * B) with B by ring. reflexivity.
Qed.

Lemma plasma_frequency_exact_p (n : R) :
  0 <= n -> plasma_frequency_exact (Fin n) "p" None = Returns (Fin (sqrt n)).
Proof.
  intros Hn. unfold plasma_frequency_exact, plasma_frequency_ref. cbn.
  rewrite is_zero_false by lra.
  replace (n / (1 * 1)) with n by field. cbn.
  rewrite is_neg_false by exact Hn.
  rewrite Rabs_R1. do 2 f_equal. ring.
Qed.

Lemma plasma_frequency_exact_D (n : R) :
  0 <= n -> plasma_frequency_exact (Fin n) "D+" None = Returns (Fin (sqrt (n / 2))).
Proof.
  intros Hn. unfold plasma_frequency_exact, plasma_frequency_ref. cbn.
  rewrite is_zero_false by lra.
  replace (n / (1 * 2)) with (n / 2) by field. cbn.
  rewrite is_neg_false by lra.
  rewrite Rabs_R1. do 2 f_equal. ring.
Qed.

End ReferenceExact.

(** * The claims *)



(** C2: exchanging (particle1, n1, Z1) with (particle2, n2, Z2) leaves the
    returned value unchanged, in any arithmetic whose addition commutes; a
    call raises exactly when the exchanged call raises. *)
Theorem buchsbaum_frequency_swap {V : Type} `{NumLib V} {Particle Exn : Type}
    (gyrofrequency : V -> Particle -> bool -> option V -> outcome Exn V)
    (plasma_frequency : V -> Particle -> option V -> outcome Exn V)
    (B n1 n2 : V) (particle1 particle2 : Particle) (Z1 Z2 : option V)
    (to_hz : bool) :
  (forall x y : V, np_add x y = np_add y x) ->
  (forall v,
     buchsbaum_frequency gyrofrequency plasma_frequency
       B n1 n2 particle1 particle2 Z1 Z2 to_hz = Returns v <->
     buchsbaum_frequency gyrofrequency plasma_frequency
       B n2 n1 particle2 particle1 Z2 Z1 to_hz = Returns v)
  /\ ((exists e, buchsbaum_frequency gyrofrequency plasma_frequency
                   B n1 n2 particle1 particle2 Z1 Z2 to_hz = Raises e) <->
      (exists e, buchsbaum_frequency gyrofrequency plasma_frequency
                   B n2 n1 particle2 particle1 Z2 Z1 to_hz = Raises e)).
Proof.
  intros Hcomm. split.
  - intros v. unfold buchsbaum_frequency.
    destruct (gyrofrequency B particle1 false Z1) as [c1|e1],
             (gyrofrequency B particle2 false Z2) as [c2|e2],
             (plasma_frequency n1 particle1 None) as [w1|e3],
             (plasma_frequency n2 particle2 None) as [w2|e4]; cbn;
      try (split; discriminate).
    rewrite (Hcomm (w2**2 * c1**2)%np), (Hcomm (w2**2)%np). reflexivity.
  - rewrite !buchsbaum_frequency_raises. tauto.
Qed.

Lemma buchsbaum_frequency_swap_witness :
  ((forall v,
      buchsbaum_frequency gyrofrequency_f64 plasma_frequency_f64
        1%float 0x1p60%float 0x1p61%float "p"%string "D+"%string None None false
      = Returns v <->
      buchsbaum_frequency gyrofrequency_f64 plasma_frequency_f64
        1%float 0x1p61%float 0x1p60%float "D+"%string "p"%string None None false
      = Returns v)
   /\ ((exists e,
          buchsbaum_frequency gyrofrequency_f64 plasma_frequency_f64
            1%float 0x1p60%float 0x1p61%float "p"%string "D+"%string None None false
          = Raises e) <->
       (exists e,
          buchsbaum_frequency gyrofrequency_f64 plasma_frequency_f64
            1%float 0x1p61%float 0x1p60%float "D+"%string "p"%string None None false
          = Raises e)))
  /\ (forall v,
        buchsbaum_frequency gyrofrequency_exact plasma_frequency_exact
          (Fin 1) (Fin 1) (Fin 2) "p"%string "D+"%string None None false
        = Returns v <->
        buchsbaum_frequency gyrofrequency_exact plasma_frequency_exact
          (Fin 1) (Fin 2) (Fin 1) "D+"%string "p"%string None None false
        = Returns v).
Proof.
  split.
  - exact (buchsbaum_frequency_swap gyrofrequency_f64 plasma_frequency_f64
             1%float 0x1p60%float 0x1p61%float "p"%string "D+"%string None None false
             float_add_comm).
  - exact (proj1 (buchsbaum_frequency_swap gyrofrequency_exact plasma_frequency_exact
             (Fin 1) (Fin 1) (Fin 2) "p"%string "D+"%string None None false
             xadd_comm)).
Defined.

(** C5: with n1 = 0 and n2 = 0, both plasma frequencies being zero, the
    function does not raise: it divides zero by zero and returns nan, in
    exact arithmetic and in binary64, whatever the gyrofrequencies. *)
Theorem buchsbaum_frequency_zero_densities {Particle Exn : Type} :
  (forall (gyrofrequency : xreal -> Particle -> bool -> option xreal -> outcome Exn xreal)
          (plasma_frequency : xreal -> Particle -> option xreal -> outcome Exn xreal)
          (B : xreal) (particle1 particle2 : Particle) (Z1 Z2 : option xreal)
          (to_hz : bool) (omega_c1 omega_c2 : xreal),
     gyrofrequency B particle1 false Z1 = Returns omega_c1 ->
     gyrofrequency B particle2 false Z2 = Returns omega_c2 ->
     plasma_frequency (Fin 0) particle1 None = Returns (Fin 0) ->
     plasma_frequency (Fin 0) particle2 None = Returns (Fin 0) ->
     buchsbaum_frequency gyrofrequency plasma_frequency
       B (Fin 0) (Fin 0) particle1 particle2 Z1 Z2 to_hz = Returns NaN)
  /\
  (forall (gyrofrequency : float -> Particle -> bool -> option float -> outcome Exn float)
          (plasma_frequency : float -> Particle -> option float -> outcome Exn float)
          (B : float) (particle1 particle2 : Particle) (Z1 Z2 : option float)
          (to_hz : bool) (omega_c1 omega_c2 : float),
     gyrofrequency B particle1 false Z1 = Returns omega_c1 ->
     gyrofrequency B particle2 false Z2 = Returns omega_c2 ->
     plasma_frequency 0%float particle1 None = Returns 0%float ->
     plasma_frequency 0%float particle2 None = Returns 0%float ->
     buchsbaum_frequency gyrofrequency plasma_frequency
       B 0%float 0%float particle1 particle2 Z1 Z2 to_hz = Returns nan).
Proof.
  split; intros gyrofrequency plasma_frequency B particle1 particle2 Z1 Z2 to_hz
    omega_c1 omega_c2 Hc1 Hc2 Hp1 Hp2;
    rewrite (buchsbaum_frequency_returns _ _ _ _ _ _ _ _ _ _ _ _ _ _ Hc1 Hc2 Hp1 Hp2).
  - now rewrite xreal_indeterminate.
  - now rewrite float_indeterminate.
Qed.

Lemma buchsbaum_frequency_zero_densities_witness :
  buchsbaum_frequency gyrofrequency_exact plasma_frequency_exact
    (Fin 1) (Fin 0) (Fin 0) "p"%string "D+"%string None None false = Returns NaN
  /\ buchsbaum_frequency gyrofrequency_f64 plasma_frequency_f64
       1%float 0%float 0%float "p"%string "D+"%string None None false = Returns nan.
Proof.
  split.
  - apply (proj1 buchsbaum_frequency_zero_densities gyrofrequency_exact
             plasma_frequency_exact (Fin 1) "p"%string "D+"%string None None false
             (Fin (Rabs 1)) (Fin (Rabs 1 / 2))).
    + apply gyrofrequency_exact_p.
    + apply gyrofrequency_exact_D.
    + rewrite plasma_frequency_exact_p by lra. now rewrite sqrt_0.
    + rewrite plasma_frequency_exact_D by lra.
      replace (0 / 2)%R with 0%R by field. now rewrite sqrt_0.
  - eapply (proj2 buchsbaum_frequency_zero_densities gyrofrequency_f64
              plasma_frequency_f64 1%float "p"%string "D+"%string None None false);
      vm_compute; reflexivity.
Defined.

(** C6: the flag to_hz opens no code path: a call with to_hz=True is the
    call with to_hz=False. *)
Theorem buchsbaum_frequency_to_hz {V : Type} `{NumLib V} {Particle Exn : Type}
    (gyrofrequency : V -> Particle -> bool -> option V -> outcome Exn V)
    (plasma_frequency : V -> Particle -> option V -> outcome Exn V)
    (B n1 n2 : V) (particle1 particle2 : Particle) (Z1 Z2 : option V) :
  buchsbaum_frequency gyrofrequency plasma_frequency
    B n1 n2 particle1 particle2 Z1 Z2 true
  = buchsbaum_frequency gyrofrequency plasma_frequency
      B n1 n2 particle1 particle2 Z1 Z2 false.
Proof. reflexivity. Qed.

(** C7: Z1 and Z2 reach the two gyrofrequency calls only.  The plasma
    frequency is asked with z_mean=None, so a formulary that differs from
    the given one only where z_mean is set gives the same outcome, and two
    pairs of overrides with the same gyrofrequencies give the same outcome. *)
Theorem buchsbaum_frequency_charge_overrides {V : Type} `{NumLib V}
    {Particle Exn : Type}
    (gyrofrequency : V -> Particle -> bool -> option V -> outcome Exn V)
    (plasma_frequency plasma_frequency' : V -> Particle -> option V -> outcome Exn V)
    (B n1 n2 : V) (particle1 particle2 : Particle)
    (Z1 Z2 Z1' Z2' : option V) (to_hz : bool) :
  (forall n particle, plasma_frequency' n particle None = plasma_frequency n particle None) ->
  gyrofrequency B particle1 false Z1' = gyrofrequency B particle1 false Z1 ->
  gyrofrequency B particle2 false Z2' = gyrofrequency B particle2 false Z2 ->
  buchsbaum_frequency gyrofrequency plasma_frequency'
    B n1 n2 particle1 particle2 Z1' Z2' to_hz
  = buchsbaum_frequency gyrofrequency plasma_frequency
      B n1 n2 particle1 particle2 Z1 Z2 to_hz.
Proof.
  intros Hpf Hg1 Hg2. unfold buchsbaum_frequency.
  now rewrite Hg1, Hg2, !Hpf.
Qed.

Lemma buchsbaum_frequency_charge_overrides_witness :
  buchsbaum_frequency gyrofrequency_f64
    (fun n particle _ => plasma_frequency_f64 n particle None)
    1%float 0x1p60%float 0x1p61%float "p"%string "D+"%string
    (Some 1%float) (Some 1%float) false
  = buchsbaum_frequency gyrofrequency_f64 plasma_frequency_f64
      1%float 0x1p60%float 0x1p61%float "p"%string "D+"%string None None false.
Proof.
  apply (buchsbaum_frequency_charge_overrides gyrofrequency_f64 plasma_frequency_f64
           (fun n particle _ => plasma_frequency_f64 n particle None)).
  - intros n particle. reflexivity.
  - vm_compute. reflexivity.
  - vm_compute. reflexivity.
Defined.

(** ** Vanishing density of one species *)

Section Limits.

Local Open Scope R_scope.

Context {Particle Exn : Type}.
Variable gyrofrequency : xreal -> Particle -> bool -> option xreal -> outcome Exn xreal.
Variable plasma_frequency : xreal -> Particle -> option xreal -> outcome Exn xreal.
Variables (B : xreal) (particle1 particle2 : Particle) (Z1 Z2 : option xreal).
Variable to_hz : bool.
Variables wc1 wc2 : R.
Variables w1 w2 : R -> R.

Hypothesis gyro1 : gyrofrequency B particle1 false Z1 = Returns (Fin wc1).
Hypothesis gyro2 : gyrofrequency B particle2 false Z2 = Returns (Fin wc2).
Hypothesis plasma1 :
  forall n, 0 <= n -> plasma_frequency (Fin n) particle1 None = Returns (Fin (w1 n)).
Hypothesis plasma2 :
  forall n, 0 <= n -> plasma_frequency (Fin n) particle2 None = Returns (Fin (w2 n)).




End Limits.


(** ** The sign of the magnetic field *)

Lemma SFabs_binary_round_aux (prec emax : Z) (s s' : bool) (m e : Z) (l : location) :
  SFabs (binary_round_aux prec emax s m e l)
  = SFabs (binary_round_aux prec emax s' m e l).
Proof.
  unfold binary_round_aux.
  destruct (shr_fexp prec emax m e l) as [mrs e'].
  destruct (shr_fexp prec emax _ e' loc_Exact) as [mrs' e''].
  destruct (shr_m mrs'); try reflexivity.
  destruct (e'' <=? emax - prec)%Z; reflexivity.
Qed.

Lemma SFabs_mul_opp (prec emax : Z) (x y : spec_float) :
  SFabs (SFmul prec emax x (SFopp y)) = SFabs (SFmul prec emax x y).
Proof.
  destruct x as [sx|sx| |sx mx ex], y as [sy|sy| |sy my ey]; try reflexivity.
  cbn [SFopp SFmul]. apply SFabs_binary_round_aux.
Qed.

Lemma float_abs_mul_neg (x b : float) :
  np_abs (np_mul x (np_neg b)) = np_abs (np_mul x b).
Proof.
  cbn. apply Prim2SF_inj.
  rewrite !abs_spec, !mul_spec, opp_spec. apply SFabs_mul_opp.
Qed.

Lemma is_zero_opp (r : R) : is_zero (- r) = is_zero r.
Proof.
  unfold is_zero.
  destruct (Req_dec_T (- r) 0), (Req_dec_T r 0); try reflexivity; lra.
Qed.

Lemma xabs_xinf (s : bool) : xabs (xinf s) = PInf.
Proof. now destruct s. Qed.

Lemma xabs_xmul_inf (s s' : bool) (y : R) :
  xabs (xmul_inf s (Fin (- y))) = xabs (xmul_inf s' (Fin y)).
Proof.
  cbn. rewrite is_zero_opp. destruct (is_zero y); [reflexivity|].
  now rewrite !xabs_xinf.
Qed.

Lemma xabs_mul_neg (x b : xreal) :
  np_abs (np_mul x (np_neg b)) = np_abs (np_mul x b).
Proof.
  destruct x as [x| | |], b as [b| | |]; try reflexivity.
  - cbn. f_equal. replace (x * - b)%R with (- (x * b))%R by ring. apply Rabs_Ropp.
  - cbn. destruct (is_zero x); [reflexivity|]. now rewrite !xabs_xinf.
  - cbn. destruct (is_zero x); [reflexivity|]. now rewrite !xabs_xinf.
  - apply (xabs_xmul_inf false false).
  - apply (xabs_xmul_inf true true).
Qed.

(** C9: with the unsigned gyrofrequency |Z e B| / m of the reference
    formulary, in any arithmetic where the magnitude of a product ignores
    the sign of a factor, a call with -B is the call with B. *)
Theorem buchsbaum_frequency_even {V : Type} `{NumLib V}
    (si : constants V) (particle_table : string -> option (species V))
    (plasma_frequency : V -> string -> option V -> outcome formulary_error V)
    (B n1 n2 : V) (particle1 particle2 : string) (Z1 Z2 : option V)
    (to_hz : bool) :
  (forall x b : V, np_abs (np_mul x (np_neg b)) = np_abs (np_mul x b)) ->
  buchsbaum_frequency (gyrofrequency_ref si particle_table) plasma_frequency
    (np_neg B) n1 n2 particle1 particle2 Z1 Z2 to_hz
  = buchsbaum_frequency (gyrofrequency_ref si particle_table) plasma_frequency
      B n1 n2 particle1 particle2 Z1 Z2 to_hz.
Proof.
  intros Heven.
  assert (Hg : forall particle Z,
             gyrofrequency_ref si particle_table (np_neg B) particle false Z
             = gyrofrequency_ref si particle_table B particle false Z).
  { intros particle Z. unfold gyrofrequency_ref.
    destruct (particle_table particle) as [s|]; [|reflexivity].
    now rewrite Heven. }
  unfold buchsbaum_frequency. now rewrite !Hg.
Qed.

Lemma buchsbaum_frequency_even_witness :
  buchsbaum_frequency gyrofrequency_f64 plasma_frequency_f64
    (np_neg 1%float) 0x1p60%float 0x1p61%float "p"%string "D+"%string None None false
  = buchsbaum_frequency gyrofrequency_f64 plasma_frequency_f64
      1%float 0x1p60%float 0x1p61%float "p"%string "D+"%string None None false
  /\ buchsbaum_frequency gyrofrequency_exact plasma_frequency_exact
       (np_neg (Fin 1)) (Fin 1) (Fin 2) "p"%string "D+"%string None None false
     = buchsbaum_frequency gyrofrequency_exact plasma_frequency_exact
         (Fin 1) (Fin 1) (Fin 2) "p"%string "D+"%string None None false.
Proof.
  split.
  - exact (buchsbaum_frequency_even si_f64 table_f64 plasma_frequency_f64
             1%float 0x1p60%float 0x1p61%float "p"%string "D+"%string None None false
             float_abs_mul_neg).
  - exact (buchsbaum_frequency_even unit_consts table_exact plasma_frequency_exact
             (Fin 1) (Fin 1) (Fin 2) "p"%string "D+"%string None None false
             xabs_mul_neg).
Defined.

(** * Further properties of the function *)

(** ** The sub-results enter through their squares *)

Lemma SFmul_opp_opp (prec emax : Z) (x : spec_float) :
  SFmul prec emax (SFopp x) (SFopp x) = SFmul prec emax x x.
Proof. destruct x as [[]|[]| |[] m e]; reflexivity. Qed.

Lemma float_sq_neg (x : float) : np_mul (np_neg x) (np_neg x) = np_mul x x.
Proof.
  cbn. apply Prim2SF_inj. rewrite !mul_spec, opp_spec. apply SFmul_opp_opp.
Qed.

Lemma xsq_neg (x : xreal) : np_mul (np_neg x) (np_neg x) = np_mul x x.
Proof.
  destruct x as [r| | |]; try reflexivity.
  cbn. f_equal. ring.
Qed.

Lemma np_sq_up_to_sign {V : Type} `{NumLib V} (x y : V) :
  (forall z : V, np_mul (np_neg z) (np_neg z) = np_mul z z) ->
  x = y \/ x = np_neg y -> np_sq x = np_sq y.
Proof.
  intros Hsq [->| ->]; [reflexivity|]. unfold np_sq. apply Hsq.
Qed.

(** X2: the four sub-results enter the expression through their squares
    only: a formulary whose results differ from another's by their signs
    gives the same outcome, in any arithmetic where (-x)(-x) = x x. *)
Theorem buchsbaum_frequency_sign_blind {V : Type} `{NumLib V}
    {Particle Exn : Type}
    (gyrofrequency gyrofrequency' : V -> Particle -> bool -> option V -> outcome Exn V)
    (plasma_frequency plasma_frequency' : V -> Particle -> option V -> outcome Exn V)
    (B n1 n2 : V) (particle1 particle2 : Particle) (Z1 Z2 : option V)
    (to_hz : bool) :
  (forall x : V, np_mul (np_neg x) (np_neg x) = np_mul x x) ->
  up_to_sign (gyrofrequency' B particle1 false Z1) (gyrofrequency B particle1 false Z1) ->
  up_to_sign (gyrofrequency' B particle2 false Z2) (gyrofrequency B particle2 false Z2) ->
  up_to_sign (plasma_frequency' n1 particle1 None) (plasma_frequency n1 particle1 None) ->
  up_to_sign (plasma_frequency' n2 particle2 None) (plasma_frequency n2 particle2 None) ->
  buchsbaum_frequency gyrofrequency' plasma_frequency'
    B n1 n2 particle1 particle2 Z1 Z2 to_hz
  = buchsbaum_frequency gyrofrequency plasma_frequency
      B n1 n2 particle1 particle2 Z1 Z2 to_hz.
Proof.
  intros Hsq Hc1 Hc2 Hp1 Hp2. unfold buchsbaum_frequency, up_to_sign in *.
  destruct (gyrofrequency' B particle1 false Z1) as [c1'|],
           (gyrofrequency B particle1 false Z1) as [c1|];
    try contradiction; cbn; [|now subst].
  destruct (gyrofrequency' B particle2 false Z2) as [c2'|],
           (gyrofrequency B particle2 false Z2) as [c2|];
    try contradiction; cbn; [|now subst].
  destruct (plasma_frequency' n1 particle1 None) as [w1'|],
           (plasma_frequency n1 particle1 None) as [w1|];
    try contradiction; cbn; [|now subst].
  destruct (plasma_frequency' n2 particle2 None) as [w2'|],
           (plasma_frequency n2 particle2 None) as [w2|];
    try contradiction; cbn; [|now subst].
  rewrite (np_sq_up_to_sign c1' c1 Hsq Hc1), (np_sq_up_to_sign c2' c2 Hsq Hc2),
    (np_sq_up_to_sign w1' w1 Hsq Hp1), (np_sq_up_to_sign w2' w2 Hsq Hp2).
  reflexivity.
Qed.

Lemma buchsbaum_frequency_sign_blind_witness :
  buchsbaum_frequency
    (fun B particle signed Z =>
       omega <- gyrofrequency_f64 B particle signed Z ;; Returns (np_neg omega))
    plasma_frequency_f64
    1%float 0x1p60%float 0x1p61%float "p"%string "D+"%string None None false
  = buchsbaum_frequency gyrofrequency_f64 plasma_frequency_f64
      1%float 0x1p60%float 0x1p61%float "p"%string "D+"%string None None false
  /\ buchsbaum_frequency
       (fun B particle signed Z =>
          omega <- gyrofrequency_exact B particle signed Z ;; Returns (np_neg omega))
       plasma_frequency_exact
       (Fin 1) (Fin 1) (Fin 2) "p"%string "D+"%string None None false
     = buchsbaum_frequency gyrofrequency_exact plasma_frequency_exact
         (Fin 1) (Fin 1) (Fin 2) "p"%string "D+"%string None None false.
Proof.
  split.
  - apply (buchsbaum_frequency_sign_blind gyrofrequency_f64 _ plasma_frequency_f64 _
             1%float 0x1p60%float 0x1p61%float "p"%string "D+"%string None None false
             float_sq_neg).
    + vm_compute. right. reflexivity.
    + vm_compute. right. reflexivity.
    + vm_compute. left. reflexivity.
    + vm_compute. left. reflexivity.
  - apply (buchsbaum_frequency_sign_blind gyrofrequency_exact _ plasma_frequency_exact _
             (Fin 1) (Fin 1) (Fin 2) "p"%string "D+"%string None None false
             xsq_neg).
    + rewrite gyrofrequency_exact_p. right. reflexivity.
    + rewrite gyrofrequency_exact_D. right. reflexivity.
    + rewrite plasma_frequency_exact_p by lra. left. reflexivity.
    + rewrite plasma_frequency_exact_D by lra. left. reflexivity.
Defined.

(** ** The sign of a returned value *)

Section Signs.

Variables prec emax : Z.

Lemma sign_binary_round_aux (m e : Z) (l : location) :
  sign_clear (binary_round_aux prec emax false m e l) = true.
Proof.
  unfold binary_round_aux.
  destruct (shr_fexp prec emax m e l) as [mrs e'].
  destruct (shr_fexp prec emax _ e' loc_Exact) as [mrs' e''].
  destruct (shr_m mrs'); try reflexivity.
  destruct (e'' <=? emax - prec)%Z; reflexivity.
Qed.

Lemma sign_SFmul_self (x : spec_float) : sign_clear (SFmul prec emax x x) = true.
Proof.
  destruct x as [s|s| |s m e]; cbn [SFmul];
    try rewrite xorb_nilpotent; try reflexivity.
  apply sign_binary_round_aux.
Qed.

Lemma sign_SFmul (x y : spec_float) :
  sign_clear x = true -> sign_clear y = true ->
  sign_clear (SFmul prec emax x y) = true.
Proof.
  destruct x as [[]|[]| |[] mx ex], y as [[]|[]| |[] my ey];
    try discriminate; intros _ _; try reflexivity.
  apply sign_binary_round_aux.
Qed.

Lemma sign_SFadd (x y : spec_float) :
  sign_clear x = true -> sign_clear y = true ->
  sign_clear (SFadd prec emax x y) = true.
Proof.
  destruct x as [[]|[]| |[] mx ex], y as [[]|[]| |[] my ey];
    try discriminate; intros _ _; try reflexivity.
  cbn [SFadd cond_Zopp Z.add]. cbn [binary_normalize]. unfold binary_round.
  destruct (shl_align _ _ _) as [mz ez]. apply sign_binary_round_aux.
Qed.

Lemma sign_SFdiv (x y : spec_float) :
  sign_clear x = true -> sign_clear y = true ->
  sign_clear (SFdiv prec emax x y) = true.
Proof.
  destruct x as [[]|[]| |[] mx ex], y as [[]|[]| |[] my ey];
    try discriminate; intros _ _; try reflexivity.
  cbn [SFdiv xorb]. destruct (SFdiv_core_binary prec emax _ _ _ _) as [[mz ez] lz].
  apply sign_binary_round_aux.
Qed.

Lemma sign_SFsqrt (x : spec_float) :
  sign_clear x = true -> sign_clear (SFsqrt prec emax x) = true.
Proof.
  destruct x as [[]|[]| |[] mx ex]; try discriminate; intros _; try reflexivity.
  cbn [SFsqrt]. destruct (SFsqrt_core_binary prec emax _ _) as [[mz ez] lz].
  apply sign_binary_round_aux.
Qed.

End Signs.

Lemma float_expression_sign (omega_c1 omega_c2 omega_p1 omega_p2 : float) :
  not_negative
    (np_sqrt ((omega_p1**2 * omega_c2**2 + omega_p2**2 * omega_c1**2)
              / (omega_p1**2 + omega_p2**2)))%np = true.
Proof.
  unfold not_negative, np_sq. cbn.
  rewrite sqrt_spec, div_spec, !add_spec, !mul_spec.
  apply sign_SFsqrt, sign_SFdiv; apply sign_SFadd;
    repeat first [apply sign_SFmul_self | apply sign_SFmul].
Qed.

Lemma xsqrt_sign (a : xreal) : xnot_negative (xsqrt a) = true.
Proof.
  destruct a as [r| | |]; try reflexivity.
  cbn. destruct (is_neg r); [reflexivity|].
  cbn. now rewrite is_neg_false by apply sqrt_pos.
Qed.

(** X3: whatever the four formulary calls return (negative, infinite or
    nan values included), a returned value is never negative: in exact
    arithmetic it is nan, +inf or a number >= 0, and in binary64 it is nan or
    has its sign bit clear. *)
Theorem buchsbaum_frequency_never_negative {Particle Exn : Type} :
  (forall (gyrofrequency : xreal -> Particle -> bool -> option xreal -> outcome Exn xreal)
          (plasma_frequency : xreal -> Particle -> option xreal -> outcome Exn xreal)
          (B n1 n2 : xreal) (particle1 particle2 : Particle) (Z1 Z2 : option xreal)
          (to_hz : bool) (v : xreal),
     buchsbaum_frequency gyrofrequency plasma_frequency
       B n1 n2 particle1 particle2 Z1 Z2 to_hz = Returns v ->
     xnot_negative v = true)
  /\
  (forall (gyrofrequency : float -> Particle -> bool -> option float -> outcome Exn float)
          (plasma_frequency : float -> Particle -> option float -> outcome Exn float)
          (B n1 n2 : float) (particle1 particle2 : Particle) (Z1 Z2 : option float)
          (to_hz : bool) (v : float),
     buchsbaum_frequency gyrofrequency plasma_frequency
       B n1 n2 particle1 particle2 Z1 Z2 to_hz = Returns v ->
     not_negative v = true).
Proof.
  split; intros gyrofrequency plasma_frequency B n1 n2 particle1 particle2 Z1 Z2
    to_hz v Hv;
    apply buchsbaum_frequency_inv in Hv;
    destruct Hv as [c1 [c2 [w1 [w2 [_ [_ [_ [_ ->]]]]]]]].
  - apply xsqrt_sign.
  - apply float_expression_sign.
Qed.

Lemma buchsbaum_frequency_never_negative_witness :
  (exists v,
     buchsbaum_frequency gyrofrequency_exact plasma_frequency_exact
       (Fin 1) (Fin 1) (Fin 1) "p"%string "D+"%string None None false = Returns v
     /\ xnot_negative v = true)
  /\ (exists v,
        buchsbaum_frequency gyrofrequency_f64 plasma_frequency_f64
          1%float 1e18%float 1e18%float "p"%string "D+"%string None None false
        = Returns v
        /\ not_negative v = true).
Proof.
  split.
  - eexists. split.
    + apply (buchsbaum_frequency_returns gyrofrequency_exact plasma_frequency_exact
               (Fin 1) (Fin 1) (Fin 1) "p"%string "D+"%string None None false
               _ _ _ _ (gyrofrequency_exact_p 1 false) (gyrofrequency_exact_D 1 false)
               (plasma_frequency_exact_p 1 Rle_0_1)
               (plasma_frequency_exact_D 1 Rle_0_1)).
    + apply (proj1 buchsbaum_frequency_never_negative
               gyrofrequency_exact plasma_frequency_exact
               (Fin 1) (Fin 1) (Fin 1) "p"%string "D+"%string None None false).
      apply (buchsbaum_frequency_returns gyrofrequency_exact plasma_frequency_exact
               (Fin 1) (Fin 1) (Fin 1) "p"%string "D+"%string None None false
               _ _ _ _ (gyrofrequency_exact_p 1 false) (gyrofrequency_exact_D 1 false)
               (plasma_frequency_exact_p 1 Rle_0_1)
               (plasma_frequency_exact_D 1 Rle_0_1)).
  - eexists. split.
    + vm_compute. reflexivity.
    + apply (proj2 buchsbaum_frequency_never_negative
               gyrofrequency_f64 plasma_frequency_f64
               1%float 1e18%float 1e18%float "p"%string "D+"%string None None false).
      vm_compute. reflexivity.
Defined.

(** ** A nan among the sub-results *)

Section NanSpec.

Variables prec emax : Z.

Lemma SFmul_nan_l (y : spec_float) : SFmul prec emax S754_nan y = S754_nan.
Proof. reflexivity. Qed.

Lemma SFmul_nan_r (x : spec_float) : SFmul prec emax x S754_nan = S754_nan.
Proof. now destruct x. Qed.

Lemma SFadd_nan_l (y : spec_float) : SFadd prec emax S754_nan y = S754_nan.
Proof. reflexivity. Qed.

Lemma SFadd_nan_r (x : spec_float) : SFadd prec emax x S754_nan = S754_nan.
Proof. now destruct x. Qed.

Lemma SFdiv_nan_l (y : spec_float) : SFdiv prec emax S754_nan y = S754_nan.
Proof. reflexivity. Qed.

Lemma SFsqrt_nan : SFsqrt prec emax S754_nan = S754_nan.
Proof. reflexivity. Qed.

End NanSpec.

Lemma float_expression_nan (omega_c1 omega_c2 omega_p1 omega_p2 : float) :
  omega_c1 = nan \/ omega_c2 = nan \/ omega_p1 = nan \/ omega_p2 = nan ->
  (np_sqrt ((omega_p1**2 * omega_c2**2 + omega_p2**2 * omega_c1**2)
            / (omega_p1**2 + omega_p2**2)))%np = nan.
Proof.
  intros Hnan. unfold np_sq. cbn. apply Prim2SF_inj.
  rewrite sqrt_spec, div_spec, !add_spec, !mul_spec.
  unfold SF64sqrt, SF64div, SF64add, SF64mul.
  destruct Hnan as [-> | [-> | [-> | ->]]]; change (Prim2SF nan) with S754_nan;
    now rewrite ?SFmul_nan_l, ?SFmul_nan_r, ?SFadd_nan_l, ?SFadd_nan_r,
      ?SFdiv_nan_l, ?SFsqrt_nan.
Qed.

Lemma xmul_nan_r (x : xreal) : xmul x NaN = NaN.
Proof. now destruct x. Qed.

Lemma xadd_nan_r (x : xreal) : xadd x NaN = NaN.
Proof. now destruct x. Qed.

Lemma xreal_expression_nan (omega_c1 omega_c2 omega_p1 omega_p2 : xreal) :
  omega_c1 = NaN \/ omega_c2 = NaN \/ omega_p1 = NaN \/ omega_p2 = NaN ->
  (np_sqrt ((omega_p1**2 * omega_c2**2 + omega_p2**2 * omega_c1**2)
            / (omega_p1**2 + omega_p2**2)))%np = NaN.
Proof.
  intros Hnan. unfold np_sq. cbn [np_sqrt np_div np_add np_mul xreal_NumLib].
  destruct Hnan as [-> | [-> | [-> | ->]]];
    repeat (progress (cbn; rewrite ?xmul_nan_r, ?xadd_nan_r)); reflexivity.
Qed.

(** X4: a nan returned by any of the four formulary calls is returned by
    the function: nothing in the expression masks it, in exact arithmetic
    and in binary64. *)
Theorem buchsbaum_frequency_nan_propagates {Particle Exn : Type} :
  (forall (gyrofrequency : xreal -> Particle -> bool -> option xreal -> outcome Exn xreal)
          (plasma_frequency : xreal -> Particle -> option xreal -> outcome Exn xreal)
          (B n1 n2 : xreal) (particle1 particle2 : Particle) (Z1 Z2 : option xreal)
          (to_hz : bool) (omega_c1 omega_c2 omega_p1 omega_p2 : xreal),
     gyrofrequency B particle1 false Z1 = Returns omega_c1 ->
     gyrofrequency B particle2 false Z2 = Returns omega_c2 ->
     plasma_frequency n1 particle1 None = Returns omega_p1 ->
     plasma_frequency n2 particle2 None = Returns omega_p2 ->
     omega_c1 = NaN \/ omega_c2 = NaN \/ omega_p1 = NaN \/ omega_p2 = NaN ->
     buchsbaum_frequency gyrofrequency plasma_frequency
       B n1 n2 particle1 particle2 Z1 Z2 to_hz = Returns NaN)
  /\
  (forall (gyrofrequency : float -> Particle -> bool -> option float -> outcome Exn float)
          (plasma_frequency : float -> Particle -> option float -> outcome Exn float)
          (B n1 n2 : float) (particle1 particle2 : Particle) (Z1 Z2 : option float)
          (to_hz : bool) (omega_c1 omega_c2 omega_p1 omega_p2 : float),
     gyrofrequency B particle1 false Z1 = Returns omega_c1 ->
     gyrofrequency B particle2 false Z2 = Returns omega_c2 ->
     plasma_frequency n1 particle1 None = Returns omega_p1 ->
     plasma_frequency n2 particle2 None = Returns omega_p2 ->
     omega_c1 = nan \/ omega_c2 = nan \/ omega_p1 = nan \/ omega_p2 = nan ->
     buchsbaum_frequency gyrofrequency plasma_frequency
       B n1 n2 particle1 particle2 Z1 Z2 to_hz = Returns nan).
Proof.
  split; intros gyrofrequency plasma_frequency B n1 n2 particle1 particle2 Z1 Z2
    to_hz omega_c1 omega_c2 omega_p1 omega_p2 Hc1 Hc2 Hp1 Hp2 Hnan;
    rewrite (buchsbaum_frequency_returns _ _ _ _ _ _ _ _ _ _ _ _ _ _ Hc1 Hc2 Hp1 Hp2);
    f_equal.
  - now apply xreal_expression_nan.
  - now apply float_expression_nan.
Qed.

Lemma buchsbaum_frequency_nan_propagates_witness :
  buchsbaum_frequency gyrofrequency_exact plasma_frequency_exact
    (Fin 1) (Fin 1) NaN "p"%string "D+"%string None None false = Returns NaN
  /\ buchsbaum_frequency gyrofrequency_f64 plasma_frequency_f64
       nan 1e18%float 1e18%float "p"%string "D+"%string None None false
     = Returns nan.
Proof.
  split.
  - apply (proj1 buchsbaum_frequency_nan_propagates
             gyrofrequency_exact plasma_frequency_exact
             (Fin 1) (Fin 1) NaN "p"%string "D+"%string None None false
             (Fin (Rabs 1)) (Fin (Rabs 1 / 2)) (Fin (sqrt 1)) NaN).
    + apply gyrofrequency_exact_p.
    + apply gyrofrequency_exact_D.
    + apply plasma_frequency_exact_p. lra.
    + reflexivity.
    + do 3 right. reflexivity.
  - eapply (proj2 buchsbaum_frequency_nan_propagates
              gyrofrequency_f64 plasma_frequency_f64
              nan 1e18%float 1e18%float "p"%string "D+"%string None None false).
    + vm_compute. reflexivity.
    + vm_compute. reflexivity.
    + vm_compute. reflexivity.
    + vm_compute. reflexivity.
    + left. reflexivity.
Defined.

(** * Binary64 against exact arithmetic *)

(** ** Rounding a non-negative mantissa never gives nan *)

Section NeverNan.

Variables prec emax : Z.

Lemma shr_1_nonneg (mrs : shr_record) :
  (0 <= shr_m mrs)%Z -> (0 <= shr_m (shr_1 mrs))%Z.
Proof.
  destruct mrs as [m r s]. cbn. destruct m as [|p|p]; cbn; try lia.
  destruct p; cbn; lia.
Qed.

Lemma iter_pos_shr_1_nonneg (n : positive) (mrs : shr_record) :
  (0 <= shr_m mrs)%Z -> (0 <= shr_m (SpecFloat.iter_pos shr_1 n mrs))%Z.
Proof.
  revert mrs. induction n as [n IH|n IH|]; intros mrs Hm; cbn.
  - apply IH, IH, shr_1_nonneg, Hm.
  - apply IH, IH, Hm.
  - apply shr_1_nonneg, Hm.
Qed.

Lemma shr_fexp_nonneg (m e : Z) (l : location) :
  (0 <= m)%Z -> (0 <= shr_m (fst (shr_fexp prec emax m e l)))%Z.
Proof.
  intros Hm. unfold shr_fexp, shr.
  assert (Hrec : (0 <= shr_m (shr_record_of_loc m l))%Z)
    by (destruct l as [|[]]; exact Hm).
  destruct (fexp prec emax (Zdigits2 m + e) - e)%Z; cbn [fst]; try exact Hrec.
  now apply iter_pos_shr_1_nonneg.
Qed.

Lemma round_nearest_even_nonneg (m : Z) (l : location) :
  (0 <= m)%Z -> (0 <= round_nearest_even m l)%Z.
Proof.
  intros Hm. destruct l as [|[]]; cbn; try lia. destruct (Z.even m); lia.
Qed.

Lemma binary_round_aux_not_nan (s : bool) (m e : Z) (l : location) :
  (0 <= m)%Z -> sf_nan (binary_round_aux prec emax s m e l) = false.
Proof.
  intros Hm. unfold binary_round_aux.
  pose proof (shr_fexp_nonneg m e l Hm) as H1.
  destruct (shr_fexp prec emax m e l) as [mrs e']. cbn [fst] in H1.
  pose proof (shr_fexp_nonneg _ e' loc_Exact
                (round_nearest_even_nonneg (shr_m mrs) (loc_of_shr_record mrs) H1))
    as H2.
  destruct (shr_fexp prec emax _ e' loc_Exact) as [mrs' e'']. cbn [fst] in H2.
  destruct (shr_m mrs'); try reflexivity.
  - destruct (e'' <=? emax - prec)%Z; reflexivity.
  - lia.
Qed.

(** A product is nan for a nan factor and for zero times infinity only. *)
Lemma SFmul_is_nan (x y : spec_float) :
  sf_nan (SFmul prec emax x y)
  = sf_nan x || sf_nan y || (sf_zero x && sf_inf y) || (sf_inf x && sf_zero y).
Proof.
  destruct x as [sx|sx| |sx mx ex], y as [sy|sy| |sy my ey]; try reflexivity.
  cbn [SFmul]. rewrite binary_round_aux_not_nan by lia. reflexivity.
Qed.

Lemma SFmul_self_is_nan (x : spec_float) :
  sf_nan (SFmul prec emax x x) = sf_nan x.
Proof. rewrite SFmul_is_nan. now destruct x. Qed.

Lemma SFdiv_core_nonneg (m1 : positive) (e1 : Z) (m2 : positive) (e2 : Z) :
  (0 <= fst (fst (SFdiv_core_binary prec emax (Zpos m1) e1 (Zpos m2) e2)))%Z.
Proof.
  unfold SFdiv_core_binary.
  set (s := (e1 - e2 - _)%Z).
  set (m' := match s with
             | Zpos _ => Z.shiftl (Zpos m1) s
             | Z0 => Zpos m1
             | Zneg _ => Z0
             end).
  assert (Hm : (0 <= m')%Z).
  { unfold m'. destruct s; try lia. apply Z.shiftl_nonneg. lia. }
  pose proof (Z_div_mod m' (Zpos m2) ltac:(lia)) as Hd.
  destruct (Z.div_eucl m' (Zpos m2)) as [q r]. cbn. nia.
Qed.

(** A quotient is nan for a nan operand, for 0 / 0 and for inf / inf only. *)
Lemma SFdiv_is_nan (x y : spec_float) :
  sf_nan (SFdiv prec emax x y)
  = sf_nan x || sf_nan y || (sf_zero x && sf_zero y) || (sf_inf x && sf_inf y).
Proof.
  destruct x as [sx|sx| |sx mx ex], y as [sy|sy| |sy my ey]; try reflexivity.
  cbn [SFdiv].
  pose proof (SFdiv_core_nonneg mx ex my ey) as Hq.
  destruct (SFdiv_core_binary prec emax _ _ _ _) as [[mz ez] lz]. cbn in Hq.
  rewrite binary_round_aux_not_nan by exact Hq. reflexivity.
Qed.

Lemma SFsqrt_core_nonneg (m : positive) (e : Z) :
  (0 <= fst (fst (SFsqrt_core_binary prec emax (Zpos m) e)))%Z.
Proof.
  unfold SFsqrt_core_binary.
  set (s := (e - _)%Z).
  set (m' := match s with
             | Zpos _ => Z.shiftl (Zpos m) s
             | Z0 => Zpos m
             | Zneg _ => Z0
             end).
  assert (Hm : (0 <= m')%Z).
  { unfold m'. destruct s; try lia. apply Z.shiftl_nonneg. lia. }
  pose proof (Z.sqrtrem_spec m' Hm) as Hs.
  destruct (Z.sqrtrem m') as [q r]. cbn.
  destruct Hs as [Hs1 Hs2].
  destruct (Z.neg_nonneg_cases q) as [Hn|Hp]; [nia | exact Hp].
Qed.

(** The square root of a value that is not negative is nan for nan only. *)
Lemma SFsqrt_is_nan (x : spec_float) :
  sign_clear x = true -> sf_nan (SFsqrt prec emax x) = sf_nan x.
Proof.
  destruct x as [[]|[]| |[] mx ex]; try discriminate; intros _; try reflexivity.
  cbn [SFsqrt].
  pose proof (SFsqrt_core_nonneg mx ex) as Hq.
  destruct (SFsqrt_core_binary prec emax _ _) as [[mz ez] lz]. cbn in Hq.
  rewrite binary_round_aux_not_nan by exact Hq. reflexivity.
Qed.

(** A sum of two values that are not negative is nan for a nan summand only. *)
Lemma SFadd_is_nan (x y : spec_float) :
  sign_clear x = true -> sign_clear y = true ->
  sf_nan (SFadd prec emax x y) = sf_nan x || sf_nan y.
Proof.
  destruct x as [[]|[]| |[] mx ex], y as [[]|[]| |[] my ey];
    try discriminate; intros _ _; try reflexivity.
  cbn [SFadd cond_Zopp Z.add]. cbn [binary_normalize]. unfold binary_round.
  destruct (shl_align _ _ _) as [mz ez].
  rewrite binary_round_aux_not_nan by lia. reflexivity.
Qed.




End NeverNan.

(** ** When the expression is nan in binary64 *)

Section NanCases.

Variables prec emax : Z.
Variables C1 C2 P1 P2 : spec_float.

Let sq (x : spec_float) : spec_float := SFmul prec emax x x.
Let num : spec_float :=
  SFadd prec emax (SFmul prec emax (sq P1) (sq C2)) (SFmul prec emax (sq P2) (sq C1)).
Let den : spec_float := SFadd prec emax (sq P1) (sq P2).

Lemma sf_den_nan : sf_nan den = sf_nan P1 || sf_nan P2.
Proof.
  unfold den, sq.
  rewrite SFadd_is_nan by apply sign_SFmul_self.
  now rewrite !SFmul_self_is_nan.
Qed.

Lemma sf_num_nan :
  sf_nan num
  = (sf_nan P1 || sf_nan C2
     || (sf_zero (sq P1) && sf_inf (sq C2)) || (sf_inf (sq P1) && sf_zero (sq C2)))
    || (sf_nan P2 || sf_nan C1
        || (sf_zero (sq P2) && sf_inf (sq C1)) || (sf_inf (sq P2) && sf_zero (sq C1))).
Proof.
  unfold num.
  rewrite SFadd_is_nan by (apply sign_SFmul; apply sign_SFmul_self).
  rewrite !SFmul_is_nan. unfold sq. now rewrite !SFmul_self_is_nan.
Qed.

Lemma sf_result_nan :
  sf_nan (SFsqrt prec emax (SFdiv prec emax num den))
  = sf_nan num || sf_nan den || (sf_zero num && sf_zero den)
    || (sf_inf num && sf_inf den).
Proof.
  assert (Hn : sign_clear num = true).
  { unfold num. apply sign_SFadd; apply sign_SFmul; apply sign_SFmul_self. }
  assert (Hd : sign_clear den = true).
  { unfold den. apply sign_SFadd; apply sign_SFmul_self. }
  rewrite SFsqrt_is_nan by (now apply sign_SFdiv).
  apply SFdiv_is_nan.
Qed.

End NanCases.

Lemma float_expression_nan_cases (omega_c1 omega_c2 omega_p1 omega_p2 : float) :
  let N := (omega_p1**2 * omega_c2**2 + omega_p2**2 * omega_c1**2)%np in
  let D := (omega_p1**2 + omega_p2**2)%np in
  float_nan (np_sqrt (N / D)%np)
  = float_nan N || float_nan D || (float_zero N && float_zero D)
    || (float_inf N && float_inf D)
  /\ float_nan D = float_nan omega_p1 || float_nan omega_p2
  /\ float_nan N
     = (float_nan omega_p1 || float_nan omega_c2
        || (float_zero (omega_p1**2)%np && float_inf (omega_c2**2)%np)
        || (float_inf (omega_p1**2)%np && float_zero (omega_c2**2)%np))
       || (float_nan omega_p2 || float_nan omega_c1
           || (float_zero (omega_p2**2)%np && float_inf (omega_c1**2)%np)
           || (float_inf (omega_p2**2)%np && float_zero (omega_c1**2)%np)).
Proof.
  cbv zeta. unfold float_nan, float_zero, float_inf, np_sq. cbn.
  rewrite sqrt_spec, div_spec, !add_spec, !mul_spec.
  unfold SF64sqrt, SF64div, SF64add, SF64mul.
  split; [apply sf_result_nan | split; [apply sf_den_nan | apply sf_num_nan]].
Qed.

(** C4: a returned value is never negative.  In binary64 it is nan exactly
    when the numerator or the denominator of the quotient is nan, or both
    are zero, or both are infinite; the denominator is nan for a nan plasma
    frequency only, and the numerator for a nan sub-result or a product of
    zero and infinity only.  Both are zero when both squared plasma
    frequencies are zero: at n1 = n2 = 0, but also for species of charge
    zero and when the square underflows.  In exact arithmetic, on finite
    sub-results, the value is nan exactly when both plasma frequencies are
    zero and a number >= 0 otherwise. *)
Theorem buchsbaum_frequency_nan_cases {Particle Exn : Type} :
  (forall (gyrofrequency : float -> Particle -> bool -> option float -> outcome Exn float)
          (plasma_frequency : float -> Particle -> option float -> outcome Exn float)
          (B n1 n2 : float) (particle1 particle2 : Particle) (Z1 Z2 : option float)
          (to_hz : bool) (omega_c1 omega_c2 omega_p1 omega_p2 : float),
     gyrofrequency B particle1 false Z1 = Returns omega_c1 ->
     gyrofrequency B particle2 false Z2 = Returns omega_c2 ->
     plasma_frequency n1 particle1 None = Returns omega_p1 ->
     plasma_frequency n2 particle2 None = Returns omega_p2 ->
     let N := (omega_p1**2 * omega_c2**2 + omega_p2**2 * omega_c1**2)%np in
     let D := (omega_p1**2 + omega_p2**2)%np in
     exists v,
       buchsbaum_frequency gyrofrequency plasma_frequency
         B n1 n2 particle1 particle2 Z1 Z2 to_hz = Returns v
       /\ not_negative v = true
       /\ float_nan v
          = float_nan N || float_nan D || (float_zero N && float_zero D)
            || (float_inf N && float_inf D)
       /\ float_nan D = float_nan omega_p1 || float_nan omega_p2
       /\ float_nan N
          = (float_nan omega_p1 || float_nan omega_c2
             || (float_zero (omega_p1**2)%np && float_inf (omega_c2**2)%np)
             || (float_inf (omega_p1**2)%np && float_zero (omega_c2**2)%np))
            || (float_nan omega_p2 || float_nan omega_c1
                || (float_zero (omega_p2**2)%np && float_inf (omega_c1**2)%np)
                || (float_inf (omega_p2**2)%np && float_zero (omega_c1**2)%np)))
  /\
  (forall (gyrofrequency : xreal -> Particle -> bool -> option xreal -> outcome Exn xreal)
          (plasma_frequency : xreal -> Particle -> option xreal -> outcome Exn xreal)
          (B n1 n2 : xreal) (particle1 particle2 : Particle) (Z1 Z2 : option xreal)
          (to_hz : bool) (wc1 wc2 wp1 wp2 : R),
     gyrofrequency B particle1 false Z1 = Returns (Fin wc1) ->
     gyrofrequency B particle2 false Z2 = Returns (Fin wc2) ->
     plasma_frequency n1 particle1 None = Returns (Fin wp1) ->
     plasma_frequency n2 particle2 None = Returns (Fin wp2) ->
     ((wp1 = 0 /\ wp2 = 0)%R
      /\ buchsbaum_frequency gyrofrequency plasma_frequency
           B n1 n2 particle1 particle2 Z1 Z2 to_hz = Returns NaN)
     \/
     ((wp1 <> 0 \/ wp2 <> 0)%R
      /\ exists r,
           buchsbaum_frequency gyrofrequency plasma_frequency
             B n1 n2 particle1 particle2 Z1 Z2 to_hz = Returns (Fin r)
           /\ (0 <= r)%R)).
Proof.
  split.
  - intros gyrofrequency plasma_frequency B n1 n2 particle1 particle2 Z1 Z2 to_hz
      omega_c1 omega_c2 omega_p1 omega_p2 Hc1 Hc2 Hp1 Hp2 N D.
    exists (np_sqrt (N / D)%np).
    split; [exact (buchsbaum_frequency_returns _ _ _ _ _ _ _ _ _ _ _ _ _ _
                     Hc1 Hc2 Hp1 Hp2)|].
    split; [apply float_expression_sign|].
    apply float_expression_nan_cases.
  - intros gyrofrequency plasma_frequency B n1 n2 particle1 particle2 Z1 Z2 to_hz
      wc1 wc2 wp1 wp2 Hc1 Hc2 Hp1 Hp2.
    rewrite (buchsbaum_frequency_returns _ _ _ _ _ _ _ _ _ _ _ _ _ _ Hc1 Hc2 Hp1 Hp2).
    assert (Hfin : (wp1 <> 0 \/ wp2 <> 0)%R ->
                   (np_sqrt (((Fin wp1)**2 * (Fin wc2)**2 + (Fin wp2)**2 * (Fin wc1)**2)
                             / ((Fin wp1)**2 + (Fin wp2)**2)))%np
                   = Fin (omega_BB wp1 wp2 wc1 wc2)).
    { intros Hnz. apply xreal_closed_form.
      intros Hd. apply sum_sq_zero in Hd. lra. }
    destruct (Req_dec_T wp1 0) as [-> | H1].
    + destruct (Req_dec_T wp2 0) as [-> | H2].
      * left. split; [now split|]. now rewrite xreal_indeterminate.
      * right. split; [now right|]. exists (omega_BB 0 wp2 wc1 wc2).
        split; [now rewrite Hfin by now right | apply omega_BB_nonneg].
    + right. split; [now left|]. exists (omega_BB wp1 wp2 wc1 wc2).
      split; [now rewrite Hfin by now left | apply omega_BB_nonneg].
Qed.

Lemma buchsbaum_frequency_nan_cases_witness :
  (exists v,
     buchsbaum_frequency gyrofrequency_f64 plasma_frequency_f64
       1%float 1e18%float 1e18%float "p"%string "D+"%string None None false
     = Returns v
     /\ not_negative v = true /\ float_nan v = false)
  /\
  (((sqrt 1 = 0 /\ sqrt (0 / 2) = 0)%R
    /\ buchsbaum_frequency gyrofrequency_exact plasma_frequency_exact
         (Fin 1) (Fin 1) (Fin 0) "p"%string "D+"%string None None false
       = Returns NaN)
   \/
   ((sqrt 1 <> 0 \/ sqrt (0 / 2) <> 0)%R
    /\ exists r,
         buchsbaum_frequency gyrofrequency_exact plasma_frequency_exact
           (Fin 1) (Fin 1) (Fin 0) "p"%string "D+"%string None None false
         = Returns (Fin r)
         /\ (0 <= r)%R)).
Proof.
  split.
  - destruct (proj1 (@buchsbaum_frequency_nan_cases string formulary_error)
                gyrofrequency_f64 plasma_frequency_f64
                1%float 1e18%float 1e18%float "p"%string "D+"%string None None false
                _ _ _ _ eq_refl eq_refl eq_refl eq_refl)
      as [v [Hv [Hsign [Hnan _]]]].
    exists v. split; [exact Hv|]. split; [exact Hsign|].
    rewrite Hnan. vm_compute. reflexivity.
  - apply (proj2 (@buchsbaum_frequency_nan_cases string formulary_error)
             gyrofrequency_exact plasma_frequency_exact
             (Fin 1) (Fin 1) (Fin 0) "p"%string "D+"%string None None false
             (Rabs 1)%R (Rabs 1 / 2)%R (sqrt 1)%R (sqrt (0 / 2))%R).
    + apply gyrofrequency_exact_p.
    + apply gyrofrequency_exact_D.
    + apply plasma_frequency_exact_p. lra.
    + apply plasma_frequency_exact_D. lra.
Defined.

(** Two calls with n1 = 1e18 that return nan: a field of 2^996 T, where the
    proton gyrofrequency is finite and its square overflows, so that the
    numerator holds zero times infinity; and neutral helium beside protons
    of zero density, where both plasma frequencies are zero. *)
Lemma buchsbaum_frequency_nan_at_positive_density :
  (buchsbaum_frequency gyrofrequency_f64 plasma_frequency_f64
     0x1p996%float 1e18%float 0%float "p"%string "p"%string None None false
   = Returns nan
   /\ exists omega_c,
        gyrofrequency_f64 0x1p996%float "p"%string false None = Returns omega_c
        /\ float_nan omega_c = false /\ float_inf omega_c = false)
  /\ buchsbaum_frequency
       (gyrofrequency_ref si_f64 table_neutral_f64)
       (plasma_frequency_ref si_f64 table_neutral_f64)
       1%float 1e18%float 0%float "He-4 0+"%string "p"%string None None false
     = Returns nan.
Proof.
  split; [split|].
  - vm_compute. reflexivity.
  - eexists. split; [vm_compute; reflexivity|]. split; vm_compute; reflexivity.
  - vm_compute. reflexivity.
Qed.

(** ** One species absent, in binary64 *)











(** ** Between the two gyrofrequencies *)




(** ** Scaling both densities *)



